(** * ModelReportVisualizer: the report accessors and the generator stubs

    A shallow embedding of
    [torch/ao/quantization/fx/_model_report/model_report_visualizer.py].

    The class holds one attribute, [generated_reports], an ordered dictionary
    from module fqn to a dictionary from feature name to a value.  Two
    methods read it ([get_all_unique_module_fqns] and
    [get_all_unique_feature_names]); six more are declared with a docstring
    and the body [pass]. *)

From stdpp Require Import base decidable option list sets gmap strings.
From Stdlib Require Import ZArith.

Local Open Scope string_scope.

(** ** Python objects *)

Module Py.

(** A class object: its qualified name and the names of the classes that
    follow it in its method resolution order.  Python compares classes by
    identity; here two class objects are the same when both fields agree. *)
Record pyclass : Type := PyClass {
  cls_name : string;
  cls_supers : list string
}.

#[global] Instance pyclass_eq_dec : EqDecision pyclass.
Proof. solve_decision. Defined.

(** [issubclass(c, d)] *)
Definition issubclass (c d : pyclass) : bool :=
  bool_decide (c = d) || bool_decide (cls_name d ∈ cls_supers c).

(** A class that derives from [d] without being [d]. *)
Definition proper_subclass (c d : pyclass) : Prop :=
  c ≠ d ∧ issubclass c d = true.

Definition NoneType : pyclass := PyClass "NoneType" ["object"].
Definition int : pyclass := PyClass "int" ["object"].
Definition bool_ : pyclass := PyClass "bool" ["int"; "object"].
Definition float : pyclass := PyClass "float" ["object"].
Definition str : pyclass := PyClass "str" ["object"].

(** The values a report can hold under a feature name ([Any] in the
    annotations): the builtin scalars, and instances of any other class with
    their state left opaque.  A float is kept as the bit pattern of its
    IEEE-754 double. *)
Inductive pyvalue : Type :=
  | PyNone
  | PyBool (b : bool)
  | PyInt (n : Z)
  | PyFloat (bits : Z)
  | PyStr (s : string)
  | PyInstance (cls : pyclass) (state : list Z).

#[global] Instance pyvalue_eq_dec : EqDecision pyvalue.
Proof. solve_decision. Defined.

(** [type(v)] *)
Definition type_of (v : pyvalue) : pyclass :=
  match v with
  | PyNone => NoneType
  | PyBool _ => bool_
  | PyInt _ => int
  | PyFloat _ => float
  | PyStr _ => str
  | PyInstance cls _ => cls
  end.

(** [isinstance(v, c)]: the type of [v] is [c] or derives from it. *)
Definition isinstance (v : pyvalue) (c : pyclass) : bool :=
  issubclass (type_of v) c.

(** Exceptions the modelled operations can raise. *)
Inductive exn : Type :=
  | KeyError (key : string).

Inductive result (A : Type) : Type :=
  | Ok (a : A)
  | Raise (e : exn).
Arguments Ok {A} a.
Arguments Raise {A} e.

(** *** Dictionaries with string keys

    A Python [dict] (and [OrderedDict]) keeps its items in insertion order
    and holds each key once. *)
Definition unique_keys {V : Type} (kvs : list (string * V)) : bool :=
  bool_decide (NoDup kvs.*1).

Record dict (V : Type) : Type := Dict {
  items : list (string * V);
  items_unique : unique_keys items = true
}.
Arguments Dict {V} items items_unique.
Arguments items {V} d.
Arguments items_unique {V} d.

(** [d.keys()], also the order in which [for k in d] visits the keys. *)
Definition keys {V : Type} (d : dict V) : list string := (items d).*1.

Fixpoint assoc {V : Type} (k : string) (kvs : list (string * V)) : option V :=
  match kvs with
  | [] => None
  | (k', v) :: rest => if decide (k = k') then Some v else assoc k rest
  end.

(** [d.get(k)] *)
#[global] Instance dict_lookup {V : Type} : Lookup string V (dict V) :=
  fun k d => assoc k (items d).

(** [d[k]] *)
Definition getitem {V : Type} (d : dict V) (k : string) : result V :=
  match d !! k with
  | Some v => Ok v
  | None => Raise (KeyError k)
  end.

(** [{}] *)
Definition empty_dict {V : Type} : dict V := Dict [] eq_refl.

End Py.

Import Py.

(** ** Classes of the [torch] package *)

(** Modelled from the spec: the declaration of the class [torch.Tensor]
    (torch/_tensor.py) is not part of the file; it is the class of the
    array-like values, the tensors. *)
Definition torch_Tensor : pyclass :=
  PyClass "torch.Tensor" ["torch._C._TensorBase"; "object"].

(** Modelled from the spec: the declaration of the class
    [torch.nn.Parameter] (torch/nn/parameter.py) is not part of the file; it
    is a proper subclass of [torch.Tensor]. *)
Definition torch_nn_Parameter : pyclass :=
  PyClass "torch.nn.parameter.Parameter"
          ["torch.Tensor"; "torch._C._TensorBase"; "object"].

(** ** The instance and the monad of its methods *)

(** [__init__] stores its argument in the only attribute. *)
Record ModelReportVisualizer : Type := {
  generated_reports : dict (dict pyvalue)
}.

Definition __init__ (generated_reports : dict (dict pyvalue))
  : ModelReportVisualizer :=
  {| generated_reports := generated_reports |}.

(** A method body runs on [self]: it may read or replace the attributes and
    it ends with a value or with an exception. *)
Definition M (A : Type) : Type :=
  ModelReportVisualizer -> result A * ModelReportVisualizer.

Definition ret {A : Type} (a : A) : M A := fun self => (Ok a, self).

Definition bind {A B : Type} (m : M A) (k : A -> M B) : M B :=
  fun self =>
    match m self with
    | (Ok a, self') => k a self'
    | (Raise e, self') => (Raise e, self')
    end.

Notation "x <- m ;; k" := (bind m (fun x => k))
  (at level 100, m at next level, right associativity).

(** An operation that cannot touch [self]. *)
Definition lift {A : Type} (r : result A) : M A := fun self => (r, self).

(** [self.generated_reports] *)
Definition self_generated_reports : M (dict (dict pyvalue)) :=
  fun self => (Ok (generated_reports self), self).

(** [for x in xs: acc = body x acc], leaving at the first exception. *)
Fixpoint for_in {A S : Type} (xs : list A) (body : A -> S -> M S) (acc : S)
  : M S :=
  match xs with
  | [] => ret acc
  | x :: rest => acc' <- body x acc ;; for_in rest body acc'
  end.

(** ** The accessors *)

(** [return set(self.generated_reports.keys())] *)
Definition get_all_unique_module_fqns : M (gset string) :=
  reports <- self_generated_reports ;;
  ret (list_to_set (keys reports)).

(** The signature's [plottable_features_only: bool = True]: an omitted
    argument is bound to the default. *)
Definition plottable_features_only_arg (arg : option bool) : bool :=
  default true arg.

(** [a or b] on booleans: Python evaluates [b] only when [a] is false. *)
Definition or_ (a : bool) (b : M bool) : M bool :=
  if a then ret true else b.

Definition get_all_unique_feature_names (arg : option bool) : M (gset string) :=
  let plottable_features_only := plottable_features_only_arg arg in
  let unique_feature_names : gset string := ∅ in
  reports <- self_generated_reports ;;
  for_in (keys reports) (fun module_fqn unique_feature_names =>
    (* get dict of the features *)
    reports <- self_generated_reports ;;
    feature_dict <- lift (getitem reports module_fqn) ;;
    (* loop through features *)
    for_in (keys feature_dict) (fun feature_name unique_feature_names =>
      (* if we need plottable, ensure type of val is tensor *)
      wanted <- or_ (negb plottable_features_only)
                    (val <- lift (getitem feature_dict feature_name) ;;
                     ret (bool_decide (type_of val = torch_Tensor))) ;;
      if wanted
      then ret ({[feature_name]} ∪ unique_feature_names)
      else ret unique_feature_names)
      unique_feature_names)
    unique_feature_names.

(** ** The generators

    Each of the six is a signature, a docstring and [pass]: the call binds
    its arguments and returns [None].  An argument with a default is
    optional. *)

Definition generate_table_info
    (feature module_fqn_prefix_filter : option string) : M pyvalue :=
  ret PyNone.

Definition generate_table_visualization
    (feature module_fqn_prefix_filter : option string) : M pyvalue :=
  ret PyNone.

Definition generate_plot_info
    (feature : string) (module_fqn_prefix_filter : option string) : M pyvalue :=
  ret PyNone.

Definition generate_plot_visualization
    (feature : string) (module_fqn_prefix_filter : option string) : M pyvalue :=
  ret PyNone.

Definition generate_histogram_info
    (feature : string) (module_fqn_prefix_filter : option string) : M pyvalue :=
  ret PyNone.

Definition generate_histogram_visualization
    (feature : string) (module_fqn_prefix_filter : option string) : M pyvalue :=
  ret PyNone.

(** ** Reading one entry of a report *)

(** The value a layer holds under a feature name, if any:
    [generated_reports[module_fqn][feature_name]] where both keys exist. *)
Definition feature_value (reports : dict (dict pyvalue))
    (module_fqn feature_name : string) : option pyvalue :=
  feature_dict ← reports !! module_fqn; feature_dict !! feature_name.

(** ** Sample reports *)

Definition a_tensor : pyvalue := PyInstance torch_Tensor [3; 1; 4]%Z.
Definition a_parameter : pyvalue := PyInstance torch_nn_Parameter [2; 7]%Z.

(** [{"conv1": {"min": tensor, "is_outlier": True},
      "fc": {"min": tensor, "ratio": 0.5}}] *)
Definition report_two_layers : dict (dict pyvalue) :=
  Dict [("conv1", Dict [("min", a_tensor); ("is_outlier", PyBool true)] eq_refl);
        ("fc", Dict [("min", a_tensor); ("ratio", PyFloat 4602678819172646912%Z)] eq_refl)]
       eq_refl.

(** [{"conv1": {"weight": Parameter(...)}}] *)
Definition report_parameter : dict (dict pyvalue) :=
  Dict [("conv1", Dict [("weight", a_parameter)] eq_refl)] eq_refl.

(** [{"conv1": {"weight": Parameter(...)}, "fc": {"weight": tensor}}] *)
Definition report_mixed : dict (dict pyvalue) :=
  Dict [("conv1", Dict [("weight", a_parameter)] eq_refl);
        ("fc", Dict [("weight", a_tensor)] eq_refl)] eq_refl.

(** [{"fc": {"weight": tensor}, "conv1": {"weight": Parameter(...)}}]:
    the layers of [report_mixed], inserted in the other order. *)
Definition report_mixed_reordered : dict (dict pyvalue) :=
  Dict [("fc", Dict [("weight", a_tensor)] eq_refl);
        ("conv1", Dict [("weight", a_parameter)] eq_refl)] eq_refl.

(** [{"conv1": {"is_outlier": True, "ratio": 0.5}}]: a report without
    instances of classes. *)
Definition report_scalars : dict (dict pyvalue) :=
  Dict [("conv1", Dict [("is_outlier", PyBool true);
                        ("ratio", PyFloat 4602678819172646912%Z)] eq_refl)]
       eq_refl.

(** [None], a [bool], an [int], a [float] or a [str]. *)
Definition is_builtin_scalar (v : pyvalue) : bool :=
  match v with
  | PyInstance _ _ => false
  | _ => true
  end.

(** ** Comparing and measuring reports *)

(** Every value the first report holds, the second holds under the same
    module fqn and feature name. *)
Definition entries_included (r1 r2 : dict (dict pyvalue)) : Prop :=
  forall module_fqn feature_name val,
    feature_value r1 module_fqn feature_name = Some val ->
    feature_value r2 module_fqn feature_name = Some val.

(** [sum(len(feature_dict) for feature_dict in reports.values())] *)
Definition total_entries (reports : dict (dict pyvalue)) : nat :=
  sum_list ((fun layer => length (items layer.2)) <$> items reports).

Example run_fqns_two_layers :
  (get_all_unique_module_fqns (__init__ report_two_layers)).1
  = Ok {[ "conv1"; "fc" ]}.
Proof. reflexivity. Qed.

Example run_names_two_layers_plottable :
  exists s, (get_all_unique_feature_names (Some true) (__init__ report_two_layers)).1 = Ok s
            /\ elements s = ["min"].
Proof. eexists. split; [reflexivity|]. vm_compute. reflexivity. Qed.

Example run_names_two_layers_all :
  (get_all_unique_feature_names (Some false) (__init__ report_two_layers)).1
  = Ok {[ "min"; "is_outlier"; "ratio" ]}.
Proof. reflexivity. Qed.

Example run_names_parameter :
  (get_all_unique_feature_names (Some true) (__init__ report_parameter)).1 = Ok ∅.
Proof. reflexivity. Qed.

(** ** Dictionaries *)

Section dict_facts.
Context {V : Type}.
Implicit Types (d : dict V) (k : string) (kvs : list (string * V)).

Lemma assoc_is_Some kvs k : is_Some (assoc k kvs) <-> k ∈ kvs.*1.
Proof.
  induction kvs as [|[k' v] rest IH]; cbn.
  - rewrite elem_of_nil. split; [intros [? ?]; discriminate | tauto].
  - rewrite elem_of_cons. destruct (decide (k = k')) as [->|Hne].
    + split; eauto.
    + rewrite IH. tauto.
Qed.

Lemma keys_NoDup d : NoDup (keys d).
Proof. apply (bool_decide_unpack _). apply Is_true_true_2, items_unique. Qed.

(** The keys a loop visits are the keys [d.get] finds. *)
Lemma elem_of_keys d k : k ∈ keys d <-> is_Some (d !! k).
Proof. symmetry. apply assoc_is_Some. Qed.

Lemma getitem_Ok d k v : getitem d k = Ok v <-> d !! k = Some v.
Proof.
  unfold getitem. destruct (d !! k); split; intros H; congruence.
Qed.

Lemma getitem_visited d k : k ∈ keys d -> exists v, getitem d k = Ok v.
Proof.
  intros [v Hv]%elem_of_keys. exists v. by apply getitem_Ok.
Qed.

Lemma assoc_Some_unique kvs k v :
  NoDup kvs.*1 -> (k, v) ∈ kvs <-> assoc k kvs = Some v.
Proof.
  induction kvs as [|[k' v'] rest IH]; cbn; intros Hnd.
  - split; [by intros ?%elem_of_nil|done].
  - apply NoDup_cons in Hnd as [Hfresh Hnd].
    rewrite elem_of_cons. destruct (decide (k = k')) as [->|Hne].
    + split.
      * intros [[= ->]|Hin]; [done|]. destruct Hfresh.
        by apply (list_elem_of_fmap_2 fst) in Hin.
      * intros [= ->]. by left.
    + rewrite <- IH by done. split; [|by right].
      intros [[= ? ?]|?]; done.
Qed.

(** Each key is stored once, so an item is what [d.get] finds. *)
Lemma elem_of_items d k v : (k, v) ∈ items d <-> d !! k = Some v.
Proof. apply assoc_Some_unique, keys_NoDup. Qed.

Lemma lookup_empty_dict k : (empty_dict : dict V) !! k = None.
Proof. reflexivity. Qed.
End dict_facts.

(** ** Loops *)

(** The rule for a loop that collects names in a set and leaves [self]
    alone: when each turn on [x] adds exactly the names [Q x], the loop adds
    the names of all the turns. *)
Lemma for_in_collect {A : Type} (xs : list A)
    (body : A -> gset string -> M (gset string))
    (Q : A -> string -> Prop) (self : ModelReportVisualizer) :
  (forall x acc, x ∈ xs ->
     exists acc', body x acc self = (Ok acc', self)
                  /\ forall f, f ∈ acc' <-> f ∈ acc \/ Q x f) ->
  forall acc,
    exists out, for_in xs body acc self = (Ok out, self)
                /\ forall f, f ∈ out <-> f ∈ acc \/ exists x, x ∈ xs /\ Q x f.
Proof.
  induction xs as [|x rest IH]; intros Hbody acc.
  - exists acc. split; [reflexivity|].
    intros f. split; [tauto|]. intros [?|(x & Hx & _)]; [done|].
    by apply elem_of_nil in Hx.
  - destruct (Hbody x acc) as (acc' & Hrun & Hacc'); [left|].
    destruct (IH (fun y a Hy => Hbody y a (list_elem_of_further _ _ _ Hy)) acc')
      as (out & Hrest & Hout).
    exists out. split.
    + cbn. unfold bind. rewrite Hrun. exact Hrest.
    + intros f. rewrite Hout, Hacc'. split.
      * intros [[?|?]|(y & Hy & ?)].
        -- by left.
        -- right. exists x. split; [left|done].
        -- right. exists y. split; [by right|done].
      * intros [?|(y & Hy & ?)]; [by left; left|].
        apply elem_of_cons in Hy as [->|Hy]; [by left; right|].
        right. by exists y.
Qed.

(** Apply the rule to the loop of the goal, with [Q] for the names a turn
    adds: first the turns, then the goal with the loop's result. *)
Tactic Notation "loop_with" constr(Q) "as"
    simple_intropattern(out) simple_intropattern(Hrun) simple_intropattern(Hout) :=
  match goal with
  | |- context [for_in ?xs ?body ?acc ?self] =>
      edestruct (for_in_collect xs body Q self) as (out & Hrun & Hout)
  end.

(** Step over a read of [self.generated_reports]. *)
Ltac read_reports := unfold bind at 1; cbn [self_generated_reports].

(** ** What the accessors compute *)

Lemma feature_value_Some reports module_fqn feature_name val :
  feature_value reports module_fqn feature_name = Some val
  <-> exists feature_dict,
        reports !! module_fqn = Some feature_dict
        /\ feature_dict !! feature_name = Some val.
Proof. unfold feature_value. apply bind_Some. Qed.

(** The module fqns: the call succeeds, returns the set of the keys and
    leaves [self] as it was. *)
Lemma get_all_unique_module_fqns_run self :
  get_all_unique_module_fqns self
  = (Ok (list_to_set (keys (generated_reports self))), self).
Proof. reflexivity. Qed.

(** One turn of the inner loop. *)
Lemma inner_turn (plottable_features_only : bool) (feature_dict : dict pyvalue)
    feature_name (acc : gset string) self :
  feature_name ∈ keys feature_dict ->
  exists acc',
    (wanted <- or_ (negb plottable_features_only)
                   (val <- lift (getitem feature_dict feature_name) ;;
                    ret (bool_decide (type_of val = torch_Tensor))) ;;
     if wanted then ret ({[feature_name]} ∪ acc) else ret acc) self
    = (Ok acc', self)
    /\ forall f, f ∈ acc' <->
         f ∈ acc \/ (feature_name = f
                     /\ exists val, feature_dict !! f = Some val
                        /\ (plottable_features_only = true -> type_of val = torch_Tensor)).
Proof.
  intros [val Hval]%elem_of_keys.
  destruct plottable_features_only; cbn.
  - unfold bind, lift, getitem. rewrite Hval. cbn.
    destruct (decide (type_of val = torch_Tensor)) as [Hty|Hty].
    + rewrite bool_decide_eq_true_2 by done.
      eexists. split; [reflexivity|]. intros f.
      rewrite elem_of_union, elem_of_singleton. split.
      * intros [<-|?]; [right|by left]. split; [done|]. by exists val.
      * intros [?|[<- _]]; [by right|by left].
    + rewrite bool_decide_eq_false_2 by done.
      eexists. split; [reflexivity|]. intros f. split; [by left|].
      intros [?|[<- (val' & Hval' & Hty')]]; [done|].
      rewrite Hval in Hval'. injection Hval' as <-. by destruct Hty; apply Hty'.
  - eexists. split; [reflexivity|]. intros f.
    rewrite elem_of_union, elem_of_singleton. split.
    + intros [<-|?]; [right|by left]. split; [done|]. by exists val.
    + intros [?|[<- _]]; [by right|by left].
Qed.

(** The whole method: the call succeeds and leaves [self] as it was; a name
    is returned exactly when some layer holds a value under it and, when only
    plottable features are asked for, the type of that value is
    [torch.Tensor]. *)
Lemma get_all_unique_feature_names_run (arg : option bool) self :
  exists names,
    get_all_unique_feature_names arg self = (Ok names, self)
    /\ forall f, f ∈ names <->
         exists module_fqn val,
           feature_value (generated_reports self) module_fqn f = Some val
           /\ (plottable_features_only_arg arg = true -> type_of val = torch_Tensor).
Proof.
  unfold get_all_unique_feature_names.
  set (b := plottable_features_only_arg arg).
  set (reports := generated_reports self).
  read_reports. fold reports.
  loop_with (fun module_fqn f => exists val,
               feature_value reports module_fqn f = Some val
               /\ (b = true -> type_of val = torch_Tensor))
    as names Hrun Hnames.
  - intros module_fqn acc [feature_dict Hfd]%elem_of_keys.
    read_reports. fold reports.
    unfold bind at 1, lift at 1, getitem at 1. rewrite Hfd.
    loop_with (fun feature_name f =>
                 feature_name = f
                 /\ exists val, feature_dict !! f = Some val
                    /\ (b = true -> type_of val = torch_Tensor))
      as acc' Hrun Hacc'.
    + intros feature_name acc0 Hin. by apply inner_turn.
    + exists acc'. split; [exact Hrun|].
      intros f. rewrite Hacc'. split.
      * intros [?|(k & _ & <- & val & Hval & Hty)]; [by left|right].
        exists val. split; [|done].
        apply feature_value_Some. by exists feature_dict.
      * intros [?|(val & (fd & Hfd' & Hval)%feature_value_Some & Hty)];
          [by left|right].
        rewrite Hfd in Hfd'. injection Hfd' as <-.
        exists f. split; [|split; [done|by exists val]].
        apply elem_of_keys. by exists val.
  - exists names. split; [exact Hrun|].
    intros f. rewrite Hnames. split.
    + intros [Hf|(module_fqn & _ & val & Hholds & Hty)].
      * by apply elem_of_empty in Hf.
      * by exists module_fqn, val.
    + intros (module_fqn & val & Hholds & Hty). right.
      exists module_fqn. split; [|by exists val].
      apply feature_value_Some in Hholds as (fd & Hfd & _).
      apply elem_of_keys. by exists fd.
Qed.

(** ** The accessors against their descriptions *)

(** C1, as amended. With [plottable_features_only=True] the method returns
    exactly the feature names that carry, in at least one layer, a value
    whose type is [torch.Tensor] itself; a name whose values never have that
    type is left out, also when they are tensors of a subclass. *)
Theorem plottable_feature_names_exact (reports : dict (dict pyvalue)) :
  exists names,
    (get_all_unique_feature_names (Some true) (__init__ reports)).1 = Ok names
    /\ (forall f, f ∈ names <->
          exists module_fqn val,
            feature_value reports module_fqn f = Some val
            /\ type_of val = torch_Tensor)
    /\ (forall f,
          (forall module_fqn val,
             feature_value reports module_fqn f = Some val ->
             type_of val <> torch_Tensor) ->
          f ∉ names).
Proof.
  destruct (get_all_unique_feature_names_run (Some true) (__init__ reports))
    as (names & Hrun & Hnames).
  exists names. rewrite Hrun. split; [reflexivity|].
  assert (Hexact : forall f, f ∈ names <->
            exists module_fqn val,
              feature_value reports module_fqn f = Some val
              /\ type_of val = torch_Tensor).
  { intros f. rewrite Hnames. cbn. split.
    - intros (m & val & Hval & Hty). exists m, val. auto.
    - intros (m & val & Hval & Hty). exists m, val. auto. }
  split; [exact Hexact|].
  intros f Hnever (m & val & Hval & Hty)%Hexact.
  exact (Hnever m val Hval Hty).
Qed.

(** C1, as first stated, fails when a tensor value is any instance of
    [torch.Tensor]: in [report_parameter] the name "weight" carries a
    [Parameter], which is such an instance, and the method does not return
    it. *)
Lemma tensor_instance_names_counterexample :
  isinstance a_parameter torch_Tensor = true
  /\ ~ (exists names,
         (get_all_unique_feature_names (Some true) (__init__ report_parameter)).1
         = Ok names
         /\ forall f, f ∈ names <->
              exists module_fqn val,
                feature_value report_parameter module_fqn f = Some val
                /\ isinstance val torch_Tensor = true).
Proof.
  split; [reflexivity|].
  intros (names & Hrun & Hnames).
  assert (Hempty :
    (get_all_unique_feature_names (Some true) (__init__ report_parameter)).1
    = Ok ∅) by reflexivity.
  rewrite Hempty in Hrun. injection Hrun as <-.
  apply (not_elem_of_empty (C:=gset string) "weight"), Hnames.
  exists "conv1", a_parameter. split; reflexivity.
Qed.

(** C2. With [plottable_features_only=False] the method returns exactly the
    union, over the layers, of the feature names of each layer's feature set,
    whatever the values are. *)
Theorem all_feature_names_exact (reports : dict (dict pyvalue)) :
  exists names,
    (get_all_unique_feature_names (Some false) (__init__ reports)).1 = Ok names
    /\ names = ⋃ ((fun layer => list_to_set (keys layer.2)) <$> items reports)
    /\ (forall f, f ∈ names <->
          exists module_fqn feature_dict,
            reports !! module_fqn = Some feature_dict
            /\ f ∈ keys feature_dict).
Proof.
  destruct (get_all_unique_feature_names_run (Some false) (__init__ reports))
    as (names & Hrun & Hnames).
  exists names. rewrite Hrun. split; [reflexivity|].
  assert (Hexact : forall f, f ∈ names <->
            exists module_fqn feature_dict,
              reports !! module_fqn = Some feature_dict
              /\ f ∈ keys feature_dict).
  { intros f. rewrite Hnames. cbn. split.
    - intros (m & val & (fd & Hfd & Hval)%feature_value_Some & _).
      exists m, fd. split; [done|]. apply elem_of_keys. by exists val.
    - intros (m & fd & Hfd & [val Hval]%elem_of_keys).
      exists m, val. split; [|done]. apply feature_value_Some. by exists fd. }
  split; [|exact Hexact].
  apply set_eq. intros f. rewrite Hexact, elem_of_union_list. split.
  - intros (m & fd & Hfd & Hf). exists (list_to_set (keys fd)).
    split; [|by apply elem_of_list_to_set].
    apply list_elem_of_fmap. exists (m, fd). split; [done|].
    by apply elem_of_items.
  - intros (X & ([m fd] & -> & Hin)%list_elem_of_fmap & Hf).
    exists m, fd. split; [by apply elem_of_items|].
    by apply elem_of_list_to_set in Hf.
Qed.

(** C3. [get_all_unique_module_fqns] returns exactly the set of the layer
    identifiers, the top-level keys of the report the instance was
    initialized with, each once. *)
Theorem module_fqns_exact (reports : dict (dict pyvalue)) :
  exists fqns,
    (get_all_unique_module_fqns (__init__ reports)).1 = Ok fqns
    /\ (forall k, k ∈ fqns <-> k ∈ keys reports)
    /\ (forall k, k ∈ fqns <-> is_Some (reports !! k))
    /\ elements fqns ≡ₚ keys reports.
Proof.
  exists (list_to_set (keys reports)). split; [reflexivity|].
  split; [|split].
  - intros k. apply elem_of_list_to_set.
  - intros k. rewrite elem_of_list_to_set. apply elem_of_keys.
  - apply elements_list_to_set, keys_NoDup.
Qed.

(** C4. The six generators are unimplemented: whatever the feature, the
    module fqn prefix filter and the stored report, each call computes
    nothing, returns [None] and leaves the instance as it was; none returns
    the pair its docstring describes. *)
Theorem generators_return_None
    (feature : string) (optional_feature module_fqn_prefix_filter : option string)
    (self : ModelReportVisualizer) :
  generate_table_info optional_feature module_fqn_prefix_filter self
    = (Ok PyNone, self)
  /\ generate_table_visualization optional_feature module_fqn_prefix_filter self
    = (Ok PyNone, self)
  /\ generate_plot_info feature module_fqn_prefix_filter self
    = (Ok PyNone, self)
  /\ generate_plot_visualization feature module_fqn_prefix_filter self
    = (Ok PyNone, self)
  /\ generate_histogram_info feature module_fqn_prefix_filter self
    = (Ok PyNone, self)
  /\ generate_histogram_visualization feature module_fqn_prefix_filter self
    = (Ok PyNone, self).
Proof. repeat split. Qed.

(** C5. On a report of the documented shape (module fqn to feature name to
    value) both accessors return normally, for either boolean argument and
    for the omitted one: no subscript of the loops raises [KeyError]. *)
Theorem accessors_never_raise (self : ModelReportVisualizer) (arg : option bool) :
  (exists fqns, (get_all_unique_module_fqns self).1 = Ok fqns)
  /\ (exists names, (get_all_unique_feature_names arg self).1 = Ok names).
Proof.
  split.
  - eexists. reflexivity.
  - destruct (get_all_unique_feature_names_run arg self) as (names & Hrun & _).
    exists names. by rewrite Hrun.
Qed.

(** C6. Initialized with the empty report [{}], the instance answers
    [get_all_unique_module_fqns] with the empty set. *)
Theorem module_fqns_of_empty_report :
  (get_all_unique_module_fqns (__init__ empty_dict)).1 = Ok ∅.
Proof. reflexivity. Qed.

(** C7. The test for a plottable value is equality of its type with
    [torch.Tensor]: a value whose type is a proper subclass, such as
    [torch.nn.Parameter], does not make its feature name plottable, and the
    name is returned under [plottable_features_only=True] exactly when some
    other layer holds it with a value of type [torch.Tensor] itself. *)
Theorem subclass_value_not_plottable (reports : dict (dict pyvalue))
    (module_fqn f : string) (val : pyvalue) :
  feature_value reports module_fqn f = Some val ->
  proper_subclass (type_of val) torch_Tensor ->
  exists names,
    (get_all_unique_feature_names (Some true) (__init__ reports)).1 = Ok names
    /\ (f ∈ names <->
        exists other val',
          other <> module_fqn
          /\ feature_value reports other f = Some val'
          /\ type_of val' = torch_Tensor).
Proof.
  intros Hval [Hproper _].
  destruct (get_all_unique_feature_names_run (Some true) (__init__ reports))
    as (names & Hrun & Hnames).
  exists names. rewrite Hrun. split; [reflexivity|].
  rewrite Hnames. cbn. split.
  - intros (other & val' & Hval' & Hty). exists other, val'.
    split; [|auto]. intros ->.
    rewrite Hval in Hval'. injection Hval' as <-. auto.
  - intros (other & val' & _ & Hval' & Hty). exists other, val'. auto.
Qed.

(** The same on a report where "conv1" holds "weight" as a [Parameter] and
    "fc" holds it as a [Tensor]. *)
Lemma subclass_value_not_plottable_witness :
  feature_value report_mixed "conv1" "weight" = Some a_parameter
  /\ proper_subclass (type_of a_parameter) torch_Tensor
  /\ exists names,
       (get_all_unique_feature_names (Some true) (__init__ report_mixed)).1
       = Ok names
       /\ ("weight" ∈ names <->
           exists other val',
             other <> "conv1"
             /\ feature_value report_mixed other "weight" = Some val'
             /\ type_of val' = torch_Tensor).
Proof.
  assert (Hval : feature_value report_mixed "conv1" "weight" = Some a_parameter)
    by reflexivity.
  assert (Hsub : proper_subclass (type_of a_parameter) torch_Tensor)
    by (split; [discriminate|reflexivity]).
  split; [exact Hval|]. split; [exact Hsub|].
  exact (subclass_value_not_plottable report_mixed "conv1" "weight" a_parameter
           Hval Hsub).
Defined.

(** C8. The names returned under [plottable_features_only=True] are among
    those returned under [False], and a call without the argument is the
    call with [True], the default. *)
Theorem plottable_names_subset_and_default (self : ModelReportVisualizer) :
  (exists plottable all_names,
     (get_all_unique_feature_names (Some true) self).1 = Ok plottable
     /\ (get_all_unique_feature_names (Some false) self).1 = Ok all_names
     /\ plottable ⊆ all_names)
  /\ get_all_unique_feature_names None self
     = get_all_unique_feature_names (Some true) self.
Proof.
  split; [|reflexivity].
  destruct (get_all_unique_feature_names_run (Some true) self)
    as (plottable & Hrun & Hplottable).
  destruct (get_all_unique_feature_names_run (Some false) self)
    as (all_names & Hrun' & Hall).
  exists plottable, all_names. rewrite Hrun, Hrun'.
  split; [reflexivity|]. split; [reflexivity|].
  intros f (m & val & Hval & _)%Hplottable.
  apply Hall. exists m, val. split; [done|]. cbn. discriminate.
Qed.

(** C9. Neither accessor writes to the instance: after a call of
    [get_all_unique_module_fqns], or of [get_all_unique_feature_names] with
    any argument, [generated_reports] is the mapping it was before, with
    every layer and every feature value. *)
Theorem accessors_leave_reports_unchanged
    (self : ModelReportVisualizer) (arg : option bool) :
  (get_all_unique_module_fqns self).2 = self
  /\ (get_all_unique_feature_names arg self).2 = self
  /\ generated_reports (get_all_unique_module_fqns self).2
     = generated_reports self
  /\ generated_reports (get_all_unique_feature_names arg self).2
     = generated_reports self.
Proof.
  destruct (get_all_unique_feature_names_run arg self) as (names & Hrun & _).
  rewrite Hrun. repeat split.
Qed.

(** ** Further properties of the accessors *)

Lemma lookup_Permutation {V : Type} (d1 d2 : dict V) (k : string) :
  items d1 ≡ₚ items d2 -> d1 !! k = d2 !! k.
Proof.
  intros Hperm. apply option_eq. intros v.
  rewrite <- !elem_of_items. by rewrite Hperm.
Qed.

Lemma feature_value_Permutation (r1 r2 : dict (dict pyvalue)) module_fqn f :
  items r1 ≡ₚ items r2 ->
  feature_value r1 module_fqn f = feature_value r2 module_fqn f.
Proof.
  intros Hperm. unfold feature_value.
  by rewrite (lookup_Permutation r1 r2 module_fqn Hperm).
Qed.

Lemma size_union_list_le (Xs : list (gset string)) :
  size (⋃ Xs) <= sum_list (size <$> Xs).
Proof.
  induction Xs as [|X Xs IH]; cbn.
  - by rewrite size_empty.
  - rewrite size_union_alt.
    assert (size (⋃ Xs ∖ X) <= size (⋃ Xs))
      by (apply subseteq_size; intros x [? _]%elem_of_difference; done).
    lia.
Qed.

Lemma size_keys_set {V : Type} (d : dict V) :
  size (list_to_set (keys d) : gset string) = length (items d).
Proof.
  rewrite size_list_to_set by apply keys_NoDup.
  unfold keys. by rewrite length_fmap.
Qed.

(** X1. The set of module fqns has as many elements as the report has
    layers: no two layers share an fqn, so none is merged. *)
Theorem module_fqns_count (reports : dict (dict pyvalue)) :
  exists fqns,
    (get_all_unique_module_fqns (__init__ reports)).1 = Ok fqns
    /\ size fqns = length (items reports).
Proof.
  eexists. split; [reflexivity|]. cbn. apply size_keys_set.
Qed.

(** X2. The order of the layers in the report does not show in the
    results: two reports with the same layers in different orders give the
    same module fqns and, for every argument, the same feature names. *)
Theorem accessors_ignore_layer_order (r1 r2 : dict (dict pyvalue))
    (arg : option bool) :
  items r1 ≡ₚ items r2 ->
  (get_all_unique_module_fqns (__init__ r1)).1
  = (get_all_unique_module_fqns (__init__ r2)).1
  /\ (get_all_unique_feature_names arg (__init__ r1)).1
     = (get_all_unique_feature_names arg (__init__ r2)).1.
Proof.
  intros Hperm. split.
  - cbn. f_equal. apply set_eq. intros k.
    rewrite !elem_of_list_to_set. unfold keys. by rewrite Hperm.
  - destruct (get_all_unique_feature_names_run arg (__init__ r1))
      as (n1 & Hrun1 & Hn1).
    destruct (get_all_unique_feature_names_run arg (__init__ r2))
      as (n2 & Hrun2 & Hn2).
    rewrite Hrun1, Hrun2. cbn. f_equal. apply set_eq. intros f.
    rewrite Hn1, Hn2. cbn.
    by setoid_rewrite (fun m => feature_value_Permutation r1 r2 m f Hperm).
Qed.

(** The same on [report_mixed] and its reordering. *)
Lemma accessors_ignore_layer_order_witness :
  items report_mixed ≡ₚ items report_mixed_reordered
  /\ (get_all_unique_module_fqns (__init__ report_mixed)).1
     = (get_all_unique_module_fqns (__init__ report_mixed_reordered)).1
  /\ (get_all_unique_feature_names (Some true) (__init__ report_mixed)).1
     = (get_all_unique_feature_names (Some true) (__init__ report_mixed_reordered)).1.
Proof.
  assert (Hperm : items report_mixed ≡ₚ items report_mixed_reordered)
    by apply perm_swap.
  split; [exact Hperm|].
  exact (accessors_ignore_layer_order report_mixed report_mixed_reordered
           (Some true) Hperm).
Defined.

(** Both results of [get_all_unique_feature_names] carry names some layer
    lists among its features. *)
Lemma feature_names_listed (arg : option bool) self names f :
  (get_all_unique_feature_names arg self).1 = Ok names ->
  f ∈ names ->
  exists module_fqn feature_dict,
    (module_fqn, feature_dict) ∈ items (generated_reports self)
    /\ f ∈ keys feature_dict.
Proof.
  destruct (get_all_unique_feature_names_run arg self) as (n & Hrun & Hn).
  rewrite Hrun. intros [= <-].
  intros (m & val & (fd & Hfd & Hval)%feature_value_Some & _)%Hn.
  exists m, fd. split; [by apply elem_of_items|].
  apply elem_of_keys. by exists val.
Qed.

(** X3. A report that gains layers, features or nothing keeps its names:
    when every entry of one report is an entry of another, each name
    returned for the first is returned for the second, under the same
    argument. *)
Theorem feature_names_monotone (r1 r2 : dict (dict pyvalue)) (arg : option bool) :
  entries_included r1 r2 ->
  exists names1 names2,
    (get_all_unique_feature_names arg (__init__ r1)).1 = Ok names1
    /\ (get_all_unique_feature_names arg (__init__ r2)).1 = Ok names2
    /\ names1 ⊆ names2.
Proof.
  intros Hincl.
  destruct (get_all_unique_feature_names_run arg (__init__ r1))
    as (n1 & Hrun1 & Hn1).
  destruct (get_all_unique_feature_names_run arg (__init__ r2))
    as (n2 & Hrun2 & Hn2).
  exists n1, n2. rewrite Hrun1, Hrun2.
  split; [reflexivity|]. split; [reflexivity|].
  intros f (m & val & Hval & Hty)%Hn1. apply Hn2.
  exists m, val. split; [|exact Hty]. by apply Hincl.
Qed.

(** The same on [report_parameter], whose only entry is an entry of
    [report_mixed]. *)
Lemma feature_names_monotone_witness :
  entries_included report_parameter report_mixed
  /\ exists names1 names2,
       (get_all_unique_feature_names (Some false) (__init__ report_parameter)).1
       = Ok names1
       /\ (get_all_unique_feature_names (Some false) (__init__ report_mixed)).1
          = Ok names2
       /\ names1 ⊆ names2.
Proof.
  assert (Hincl : entries_included report_parameter report_mixed).
  { intros m f val (fd & Hfd & Hval)%feature_value_Some.
    apply elem_of_items, list_elem_of_singleton in Hfd.
    injection Hfd as -> ->.
    apply elem_of_items, list_elem_of_singleton in Hval.
    injection Hval as -> ->. reflexivity. }
  split; [exact Hincl|].
  exact (feature_names_monotone report_parameter report_mixed (Some false) Hincl).
Defined.

(** X4. Every feature name returned, under either argument, is a feature
    of a layer whose fqn [get_all_unique_module_fqns] returns, and
    subscripting the report with that fqn gives the layer's features; so a
    report without module fqns has no feature names. *)
Theorem feature_names_come_from_module_fqns
    (self : ModelReportVisualizer) (arg : option bool) :
  exists fqns names,
    (get_all_unique_module_fqns self).1 = Ok fqns
    /\ (get_all_unique_feature_names arg self).1 = Ok names
    /\ (forall f, f ∈ names ->
          exists module_fqn feature_dict,
            module_fqn ∈ fqns
            /\ getitem (generated_reports self) module_fqn = Ok feature_dict
            /\ f ∈ keys feature_dict)
    /\ (fqns = ∅ -> names = ∅).
Proof.
  destruct (get_all_unique_feature_names_run arg self) as (names & Hrun & Hn).
  exists (list_to_set (keys (generated_reports self))), names.
  split; [reflexivity|].
  assert (Hnames : (get_all_unique_feature_names arg self).1 = Ok names)
    by (by rewrite Hrun).
  split; [exact Hnames|].
  assert (Hfrom : forall f, f ∈ names ->
            exists module_fqn feature_dict,
              module_fqn ∈ (list_to_set (keys (generated_reports self)) : gset string)
              /\ getitem (generated_reports self) module_fqn = Ok feature_dict
              /\ f ∈ keys feature_dict).
  { intros f Hf.
    destruct (feature_names_listed arg self names f Hnames Hf)
      as (m & fd & Hfd%elem_of_items & Hkey).
    exists m, fd. split; [|split; [by apply getitem_Ok|done]].
    apply elem_of_list_to_set, elem_of_keys. by exists fd. }
  split; [exact Hfrom|].
  intros Hempty. apply set_eq. intros f. split.
  - intros (m & _ & Hm & _)%Hfrom. by rewrite Hempty in Hm.
  - by intros ?%elem_of_empty.
Qed.

(** X5. Calls do not interfere: in a sequence that asks for the feature
    names, runs a generator, asks for the module fqns and asks for the
    feature names again, every call returns, both requests for the names get
    the set a single call on the fresh instance gets, and the instance ends
    as it started. *)
Theorem calls_in_sequence_agree (self : ModelReportVisualizer)
    (arg : option bool) (feature module_fqn_prefix_filter : option string) :
  exists fqns names,
    (get_all_unique_module_fqns self).1 = Ok fqns
    /\ (get_all_unique_feature_names arg self).1 = Ok names
    /\ (first <- get_all_unique_feature_names arg ;;
        _ <- generate_table_visualization feature module_fqn_prefix_filter ;;
        between <- get_all_unique_module_fqns ;;
        second <- get_all_unique_feature_names arg ;;
        ret (first, between, second)) self
       = (Ok (names, fqns, names), self).
Proof.
  destruct (get_all_unique_feature_names_run arg self) as (names & Hrun & _).
  exists (list_to_set (keys (generated_reports self))), names.
  split; [reflexivity|]. split; [by rewrite Hrun|].
  unfold bind at 1. rewrite Hrun.
  unfold bind at 1. cbn [generate_table_visualization ret].
  unfold bind at 1. rewrite get_all_unique_module_fqns_run.
  unfold bind at 1. by rewrite Hrun.
Qed.

(** X6. Asking for plottable features only changes nothing exactly when
    every feature name of the report is held, in some layer, with a value
    of type [torch.Tensor]. *)
Theorem plottable_filter_is_identity_iff (self : ModelReportVisualizer) :
  exists plottable all_names,
    (get_all_unique_feature_names (Some true) self).1 = Ok plottable
    /\ (get_all_unique_feature_names (Some false) self).1 = Ok all_names
    /\ (plottable = all_names <->
        forall module_fqn f val,
          feature_value (generated_reports self) module_fqn f = Some val ->
          exists module_fqn' val',
            feature_value (generated_reports self) module_fqn' f = Some val'
            /\ type_of val' = torch_Tensor).
Proof.
  destruct (get_all_unique_feature_names_run (Some true) self)
    as (plottable & Hrun & Hplottable).
  destruct (get_all_unique_feature_names_run (Some false) self)
    as (all_names & Hrun' & Hall).
  exists plottable, all_names. rewrite Hrun, Hrun'.
  split; [reflexivity|]. split; [reflexivity|]. split.
  - intros Heq m f val Hval.
    assert (Hf : f ∈ plottable).
    { rewrite Heq. apply Hall. exists m, val. split; [done|]. cbn. discriminate. }
    apply Hplottable in Hf as (m' & val' & Hval' & Hty).
    exists m', val'. auto.
  - intros Hevery. apply set_eq. intros f. split.
    + intros (m & val & Hval & _)%Hplottable. apply Hall.
      exists m, val. split; [done|]. cbn. discriminate.
    + intros (m & val & Hval & _)%Hall.
      destruct (Hevery m f val Hval) as (m' & val' & Hval' & Hty).
      apply Hplottable. exists m', val'. auto.
Qed.

Lemma sum_size_key_sets (layers : list (string * dict pyvalue)) :
  sum_list (size <$> ((fun layer : string * dict pyvalue =>
                         (list_to_set (keys layer.2) : gset string)) <$> layers))
  = sum_list ((fun layer => length (items layer.2)) <$> layers).
Proof.
  induction layers as [|[m fd] rest IH]; cbn.
  - reflexivity.
  - by rewrite IH, size_keys_set.
Qed.

(** X7. The feature names are no more than the entries of the report:
    under either argument the size of the result is at most the sum of the
    sizes of the layers' feature sets. *)
Theorem feature_names_count_bound (self : ModelReportVisualizer)
    (arg : option bool) :
  exists names,
    (get_all_unique_feature_names arg self).1 = Ok names
    /\ size names <= total_entries (generated_reports self).
Proof.
  destruct (get_all_unique_feature_names_run arg self) as (names & Hrun & _).
  exists names.
  assert (Hnames : (get_all_unique_feature_names arg self).1 = Ok names)
    by (by rewrite Hrun).
  split; [exact Hnames|].
  set (per_layer := (fun layer : string * dict pyvalue =>
                       (list_to_set (keys layer.2) : gset string))
                    <$> items (generated_reports self)).
  assert (Hsub : names ⊆ ⋃ per_layer).
  { intros f Hf.
    destruct (feature_names_listed arg self names f Hnames Hf)
      as (m & fd & Hin & Hkey).
    apply elem_of_union_list. exists (list_to_set (keys fd)).
    split; [|by apply elem_of_list_to_set].
    apply list_elem_of_fmap. by exists (m, fd). }
  apply subseteq_size in Hsub.
  pose proof (size_union_list_le per_layer) as Hle.
  assert (Hsum : sum_list (size <$> per_layer)
                 = total_entries (generated_reports self)).
  { apply sum_size_key_sets. }
  lia.
Qed.

(** X8. The builtin values are never plottable: on a report that holds
    only [None], booleans, integers, floats and strings, a call with the
    default argument returns the empty set. *)
Theorem scalars_are_never_plottable (reports : dict (dict pyvalue)) :
  (forall module_fqn f val,
     feature_value reports module_fqn f = Some val ->
     is_builtin_scalar val = true) ->
  (get_all_unique_feature_names None (__init__ reports)).1 = Ok ∅.
Proof.
  intros Hscalars.
  destruct (get_all_unique_feature_names_run None (__init__ reports))
    as (names & Hrun & Hnames).
  rewrite Hrun. cbn. f_equal. apply set_eq. intros f. split.
  - intros (m & val & Hval & Hty)%Hnames.
    specialize (Hscalars m f val Hval). specialize (Hty eq_refl).
    destruct val; cbn in *; discriminate.
  - by intros ?%elem_of_empty.
Qed.

(** The same on [report_scalars]. *)
Lemma scalars_are_never_plottable_witness :
  (forall module_fqn f val,
     feature_value report_scalars module_fqn f = Some val ->
     is_builtin_scalar val = true)
  /\ (get_all_unique_feature_names None (__init__ report_scalars)).1 = Ok ∅.
Proof.
  assert (Hscalars : forall module_fqn f val,
            feature_value report_scalars module_fqn f = Some val ->
            is_builtin_scalar val = true).
  { intros m f val (fd & Hfd & Hval)%feature_value_Some.
    apply elem_of_items, list_elem_of_singleton in Hfd.
    injection Hfd as -> ->.
    apply elem_of_items in Hval. cbn in Hval.
    apply elem_of_cons in Hval as [Hval|Hval];
      [by injection Hval as -> ->|].
    apply list_elem_of_singleton in Hval. by injection Hval as -> ->. }
  split; [exact Hscalars|].
  exact (scalars_are_never_plottable report_scalars Hscalars).
Defined.
